(** * Password generator: generation and strength scoring

    A shallow embedding of [lib/password-generator.ts] and of the
    [generateNewPassword] handler of [app/page.tsx], with the properties
    stated about them.

    Conventions of the embedding:
    - a JavaScript string is the list of its UTF-16 code units ([list N]);
      a one-character string is a single code unit;
    - [PasswordOptions.length] is an integer ([Z]); the data model of the
      generator takes integer lengths only;
    - [throw new Error(msg)] is the [Throw] completion carrying the message;
    - the random source is part of the runtime: either [window.crypto] is
      present and fills the typed array, or [Math.random] is called once per
      slot; whatever either produces, a [Uint32Array] slot holds it modulo
      2^32;
    - the strength sum only takes values that are multiples of 1/2 below 10,
      which binary floating point represents exactly, so it is computed in
      [Q]; [Math.round] is rounding half up, [floor (x + 1/2)]. *)

From Stdlib Require Import ZArith QArith Qround String Ascii List Lia.
From Stdlib Require Import DecimalString.
From stdpp Require Import base tactics option list.

Local Open Scope Z_scope.

(** ** JavaScript values *)

(** The code units of an ASCII literal. *)
Definition lit (s : string) : list N :=
  map N_of_ascii (list_ascii_of_string s).

Inductive JsError : Type :=
| Error (message : string).

Inductive Completion (A : Type) : Type :=
| Return (value : A)
| Throw (error : JsError).

Arguments Return {A} value.
Arguments Throw {A} error.

Definition thrown {A} (c : Completion A) : option JsError :=
  match c with
  | Return _ => None
  | Throw e => Some e
  end.

(** [ToUint32]: what a [Uint32Array] slot keeps of an integer. *)
Definition ToUint32 (z : Z) : Z := z mod 2 ^ 32.

(** [for (let i = start; i < start + n; i++) body], on the loop state. *)
Fixpoint for_loop {St : Type} (n : nat) (i : nat)
    (body : nat -> St -> St) (s : St) : St :=
  match n with
  | O => s
  | S n' => for_loop n' (S i) body (body i s)
  end.

(** [a[i] = v] on an ordinary array: a write past the end extends the
    array with holes ([None] is a hole or [undefined]). *)
Definition array_set {A : Type} (i : nat) (v : option A)
    (a : list (option A)) : list (option A) :=
  if decide (i < List.length a)%nat then <[i:=v]> a
  else a ++ replicate (i - List.length a) None ++ [v].

(** [a[i] = v] on a [Uint32Array]: the value is stored modulo 2^32 and a
    write out of range is dropped. *)
Definition uint32_set (i : nat) (v : Z) (a : list Z) : list Z :=
  <[i:=ToUint32 v]> a.

(** [a.join("")] on an array of one-character strings: holes and
    [undefined] contribute nothing. *)
Definition join_empty (a : list (option N)) : list N := omap id a.

(** ** The runtime's random source *)

Inductive Runtime : Type :=
| Browser (getRandomValues : nat -> Z)
    (* window.crypto is present; slot i is filled with this value *)
| Server (Math_random : nat -> Q).
    (* no window.crypto; the i-th call of Math.random returns this *)

Definition Math_floor (x : Q) : Z := Qfloor x.

(** JavaScript's [Math.round]: ties go up. *)
Definition Math_round (x : Q) : Z := Qfloor (x + (1 # 2)).

(** ** lib/password-generator.ts *)

Record PasswordOptions : Type := mkOptions {
  length : Z;
  includeUppercase : bool;
  includeLowercase : bool;
  includeNumbers : bool;
  includeSymbols : bool
}.

Definition UPPERCASE : list N := lit "ABCDEFGHIJKLMNOPQRSTUVWXYZ".
Definition LOWERCASE : list N := lit "abcdefghijklmnopqrstuvwxyz".
Definition NUMBERS : list N := lit "0123456789".
Definition SYMBOLS : list N := lit "!@#$%^&*()_+-=[]{}|;:,.<>?".

Definition msg_no_class : string :=
  "At least one character type must be selected".
Definition msg_length : string :=
  "Password length must be between 1 and 128".

(** Lines 29-33: the character set of the enabled classes. *)
Definition buildCharset (options : PasswordOptions) : list N :=
  let charset := [] in
  let charset :=
    if includeUppercase options then charset ++ UPPERCASE else charset in
  let charset :=
    if includeLowercase options then charset ++ LOWERCASE else charset in
  let charset :=
    if includeNumbers options then charset ++ NUMBERS else charset in
  let charset :=
    if includeSymbols options then charset ++ SYMBOLS else charset in
  charset.

(** Lines 47-57: the typed array of random values. *)
Definition fillRandomValues (rt : Runtime) (len : nat) : list Z :=
  let randomValues := replicate len 0 in
  match rt with
  | Browser getRandomValues =>
      imap (fun i _ => ToUint32 (getRandomValues i)) randomValues
  | Server Math_random =>
      for_loop len 0
        (fun i randomValues =>
           uint32_set i (Math_floor (Math_random i * 4294967295))
             randomValues)
        randomValues
  end.

(** Lines 60-63: one character per slot. A read outside [randomValues] or
    outside [charset] is [undefined]. *)
Definition pickCharacters (charset : list N) (randomValues : list Z)
    (len : nat) : list (option N) :=
  let passwordArray := replicate len None in
  for_loop len 0
    (fun i passwordArray =>
       let randomIndex :=
         v ← randomValues !! i;
         Some (Z.rem v (Z.of_nat (List.length charset))) in
       array_set i (j ← randomIndex; charset !! Z.to_nat j) passwordArray)
    passwordArray.

Definition generatePassword (rt : Runtime) (options : PasswordOptions)
    : Completion (list N) :=
  let charset := buildCharset options in
  if decide (List.length charset = 0%nat) then
    Throw (Error msg_no_class)
  else if (length options <? 1) || (length options >? 128) then
    Throw (Error msg_length)
  else
    let len := Z.to_nat (length options) in
    let randomValues := fillRandomValues rt len in
    let passwordArray := pickCharacters charset randomValues len in
    Return (join_empty passwordArray).

(** The sum computed by lines 78-92, before rounding. *)
Definition strengthSum (password : list N) (options : PasswordOptions) : Q :=
  let strength := 0%Q in
  let len := Z.of_nat (List.length password) in
  let strength :=
    if len >=? 12 then (strength + 4)%Q
    else if len >=? 8 then (strength + 2)%Q
    else if len >=? 6 then (strength + 1)%Q
    else strength in
  let varietyCount := 0 in
  let varietyCount :=
    if includeUppercase options then varietyCount + 1 else varietyCount in
  let varietyCount :=
    if includeLowercase options then varietyCount + 1 else varietyCount in
  let varietyCount :=
    if includeNumbers options then varietyCount + 1 else varietyCount in
  let varietyCount :=
    if includeSymbols options then varietyCount + 1 else varietyCount in
  (strength + inject_Z varietyCount * 1.5)%Q.

Definition calculatePasswordStrength (password : list N)
    (options : PasswordOptions) : Z :=
  Z.min 10 (Math_round (strengthSum password options)).

Record StrengthInfo : Type := mkInfo {
  label : string;
  color : string
}.

Definition getStrengthInfo (strength : Z) : StrengthInfo :=
  if strength <=? 3 then
    {| label := "Weak"; color := "bg-red-500" |}
  else if strength <=? 6 then
    {| label := "Medium"; color := "bg-yellow-500" |}
  else
    {| label := "Strong"; color := "bg-green-500" |}.

(** ** app/page.tsx: the generate action *)

(** [{ ...options, length }]: the options with their length replaced. *)
Definition spread_length (o : PasswordOptions) (len : Z) : PasswordOptions :=
  {| length := len;
     includeUppercase := includeUppercase o;
     includeLowercase := includeLowercase o;
     includeNumbers := includeNumbers o;
     includeSymbols := includeSymbols o |}.

Module Page.

(** The component's state hooks. *)
Record State : Type := mkState {
  length : Z;
  options : PasswordOptions;
  copied : bool;
  password : list N
}.

Definition setPassword (p : list N) (st : State) : State :=
  {| length := length st; options := options st;
     copied := copied st; password := p |}.

Definition setCopied (b : bool) (st : State) : State :=
  {| length := length st; options := options st;
     copied := b; password := password st |}.

(** Lines 33-41. The result is the next state together with what was
    passed to [console.error]. *)
Definition generateNewPassword (rt : Runtime) (st : State)
    : State * list JsError :=
  match generatePassword rt (spread_length (options st) (length st)) with
  | Return newPassword =>
      (setCopied false (setPassword newPassword st), [])
  | Throw error =>
      (st, [error])
  end.

End Page.

(** ** Vocabulary of the specification *)

(** At least one character class is enabled. *)
Definition anyClass (o : PasswordOptions) : bool :=
  includeUppercase o || includeLowercase o || includeNumbers o
  || includeSymbols o.

(** A valid policy: a length in [1, 128] and at least one class. *)
Definition validPolicy (o : PasswordOptions) : Prop :=
  1 <= length o <= 128 /\ anyClass o = true.

(** The two kinds of invalid policy, as the generator reports them. *)
Definition EmptyCharacterClassSet : JsError := Error msg_no_class.
Definition LengthOutOfRange : JsError := Error msg_length.

(** What the specification says the generator throws, if anything. *)
Definition expectedError (o : PasswordOptions) : option JsError :=
  if negb (anyClass o) then Some EmptyCharacterClassSet
  else if (length o <? 1) || (128 <? length o) then Some LengthOutOfRange
  else None.

(** [c] is in the alphabet of a class enabled by [o]. *)
Definition inEnabledClass (o : PasswordOptions) (c : N) : Prop :=
  (includeUppercase o = true /\ In c UPPERCASE)
  \/ (includeLowercase o = true /\ In c LOWERCASE)
  \/ (includeNumbers o = true /\ In c NUMBERS)
  \/ (includeSymbols o = true /\ In c SYMBOLS).

(** The [n] consecutive code units from [first] on. *)
Definition codeRange (first : nat) (n : nat) : list N :=
  map N.of_nat (seq first n).

(** The pool as the specification words it: the alphabets of the enabled
    classes, in the order uppercase, lowercase, digits, symbols. *)
Definition poolOfEnabled (o : PasswordOptions) : list N :=
  concat
    (map snd
       (filter (fun class => fst class = true)
          [ (includeUppercase o, codeRange 65 26);
            (includeLowercase o, codeRange 97 26);
            (includeNumbers o, codeRange 48 10);
            (includeSymbols o, lit "!@#$%^&*()_+-=[]{}|;:,.<>?") ])).

(** The value slot [i] of the typed array ends up with. *)
Definition draw (rt : Runtime) (i : nat) : Z :=
  match rt with
  | Browser getRandomValues => ToUint32 (getRandomValues i)
  | Server Math_random =>
      ToUint32 (Math_floor (Math_random i * 4294967295))
  end.

(** The character slot [i] receives: the character of [charset] at the
    remainder of slot [i] of [randomValues]. *)
Definition picked (charset : list N) (randomValues : list Z) (i : nat)
    : option N :=
  v ← randomValues !! i;
  charset !! Z.to_nat (Z.rem v (Z.of_nat (List.length charset))).

(** The password made of the character at index [draw mod poolLength] of
    the pool, for each draw in turn. *)
Definition drawnFrom (rt : Runtime) (charset : list N) (s : list N) : Prop :=
  Forall2
    (fun i c =>
       charset !! Z.to_nat (draw rt i mod Z.of_nat (List.length charset))
       = Some c)
    (seq 0 (List.length s)) s.

(** The four character classes, to speak of one flag at a time. *)
Inductive CharClass : Type :=
| Uppercase
| Lowercase
| Numbers
| Symbols.

Definition enabled (k : CharClass) (o : PasswordOptions) : bool :=
  match k with
  | Uppercase => includeUppercase o
  | Lowercase => includeLowercase o
  | Numbers => includeNumbers o
  | Symbols => includeSymbols o
  end.

(** [o] with the flag of class [k] turned on and nothing else changed. *)
Definition enable (k : CharClass) (o : PasswordOptions) : PasswordOptions :=
  {| length := length o;
     includeUppercase :=
       match k with Uppercase => true | _ => includeUppercase o end;
     includeLowercase :=
       match k with Lowercase => true | _ => includeLowercase o end;
     includeNumbers :=
       match k with Numbers => true | _ => includeNumbers o end;
     includeSymbols :=
       match k with Symbols => true | _ => includeSymbols o end |}.

(** ** app/page.tsx: the rest of the component *)

(** [parseInt(s, 10)], with [None] for [NaN]: leading white space and line
    terminators are skipped, one sign is read, and the longest run of
    decimal digits that follows is the value; anything after it is
    ignored. The value is kept exact here; the handler only compares it
    with 6 and 32, which rounding to a double cannot change. *)
Definition isStrWhiteSpaceChar (c : N) : bool :=
  existsb (N.eqb c)
    [9; 10; 11; 12; 13; 32; 160; 5760; 8192; 8193; 8194; 8195; 8196; 8197;
     8198; 8199; 8200; 8201; 8202; 8232; 8233; 8239; 8287; 12288; 65279]%N.

Fixpoint trimStart (s : list N) : list N :=
  match s with
  | c :: s' => if isStrWhiteSpaceChar c then trimStart s' else s
  | [] => []
  end.

Definition digitValue (c : N) : option Z :=
  if (48 <=? c)%N && (c <=? 57)%N then Some (Z.of_N c - 48) else None.

Fixpoint digitPrefix (s : list N) : list Z :=
  match s with
  | c :: s' =>
      match digitValue c with
      | Some d => d :: digitPrefix s'
      | None => []
      end
  | [] => []
  end.

Definition parseInt (s : list N) : option Z :=
  let s := trimStart s in
  let '(sign, s) :=
    match s with
    | 45%N :: s' => (-1, s')
    | 43%N :: s' => (1, s')
    | _ => (1, s)
    end in
  match digitPrefix s with
  | [] => None
  | digits => Some (sign * fold_left (fun acc d => 10 * acc + d) digits 0)
  end.

(** Line 11. *)
Definition initialOptions : PasswordOptions :=
  {| length := 16; includeUppercase := true; includeLowercase := true;
     includeNumbers := true; includeSymbols := true |}.

(** Lines 20-31: the state at mount; the password comes from the lazy
    initializer, which falls back to the empty string. *)
Definition initialState (rt : Runtime) : Page.State :=
  {| Page.length := 16;
     Page.options := initialOptions;
     Page.copied := false;
     Page.password :=
       match generatePassword rt (spread_length initialOptions 16) with
       | Return p => p
       | Throw _ => []
       end |}.

Definition setLength (len : Z) (st : Page.State) : Page.State :=
  {| Page.length := len; Page.options := Page.options st;
     Page.copied := Page.copied st; Page.password := Page.password st |}.

(** [setOptions] with an updater function of the previous options. *)
Definition setOptions (f : PasswordOptions -> PasswordOptions)
    (st : Page.State) : Page.State :=
  {| Page.length := Page.length st; Page.options := f (Page.options st);
     Page.copied := Page.copied st; Page.password := Page.password st |}.

(** Lines 44-47: the memoised strength of what is displayed. *)
Definition strength (st : Page.State) : Z :=
  match Page.password st with
  | [] => 0
  | _ => calculatePasswordStrength (Page.password st) (Page.options st)
  end.

(** Lines 61-67, on [e.target.value]. *)
Definition handleLengthChange (value : list N) (st : Page.State)
    : Page.State :=
  match parseInt value with
  | Some newLength =>
      if (newLength >=? 6) && (newLength <=? 32) then
        setOptions (fun prev => spread_length prev newLength)
          (setLength newLength st)
      else st
  | None => st
  end.

(** [{ ...prev, [key]: !prev[key] }], for the four keys the checkboxes
    pass. *)
Definition toggled (key : CharClass) (prev : PasswordOptions)
    : PasswordOptions :=
  {| length := length prev;
     includeUppercase :=
       match key with
       | Uppercase => negb (includeUppercase prev)
       | _ => includeUppercase prev
       end;
     includeLowercase :=
       match key with
       | Lowercase => negb (includeLowercase prev)
       | _ => includeLowercase prev
       end;
     includeNumbers :=
       match key with
       | Numbers => negb (includeNumbers prev)
       | _ => includeNumbers prev
       end;
     includeSymbols :=
       match key with
       | Symbols => negb (includeSymbols prev)
       | _ => includeSymbols prev
       end |}.

(** Lines 69-83. *)
Definition handleOptionChange (key : CharClass) (st : Page.State)
    : Page.State :=
  setOptions
    (fun prev =>
       let newOptions := toggled key prev in
       if negb (includeUppercase newOptions)
          && negb (includeLowercase newOptions)
          && negb (includeNumbers newOptions)
          && negb (includeSymbols newOptions)
       then prev
       else newOptions)
    st.

(** Lines 130-134: the class of the label's text. *)
Definition strengthTextClass (strength : Z) : string :=
  if strength <=? 3 then "text-red-400"
  else if strength <=? 6 then "text-yellow-400"
  else "text-green-400".

(** What the user and the page's timers can do to the state. Each click
    on Generate comes with the random source of that call. [handleCopy]
    touches the state only through [setCopied], once the clipboard write
    has resolved and once its timer fires; both are let happen at any
    moment. *)
Inductive Event : Type :=
| GenerateClicked (rt : Runtime)
| LengthChanged (value : list N)
| OptionChanged (key : CharClass)
| CopiedSet (b : bool).

Definition handle (st : Page.State) (ev : Event) : Page.State :=
  match ev with
  | GenerateClicked rt => fst (Page.generateNewPassword rt st)
  | LengthChanged value => handleLengthChange value st
  | OptionChanged key => handleOptionChange key st
  | CopiedSet b => Page.setCopied b st
  end.

(** The state after a session: the mount, then the events in order. *)
Definition session (rt : Runtime) (events : list Event) : Page.State :=
  fold_left handle events (initialState rt).

(** What every state of a session satisfies. *)
Definition wellFormed (st : Page.State) : Prop :=
  6 <= Page.length st <= 32
  /\ length (Page.options st) = Page.length st
  /\ anyClass (Page.options st) = true
  /\ (6 <= List.length (Page.password st) <= 32)%nat.

(** The number of classes a policy enables. *)
Definition classCount (o : PasswordOptions) : Z :=
  Z.b2z (includeUppercase o) + Z.b2z (includeLowercase o)
  + Z.b2z (includeNumbers o) + Z.b2z (includeSymbols o).

(** The alphabet of one class. *)
Definition alphabet (k : CharClass) : list N :=
  match k with
  | Uppercase => UPPERCASE
  | Lowercase => LOWERCASE
  | Numbers => NUMBERS
  | Symbols => SYMBOLS
  end.

(** A random source that returns [v] for every slot. *)
Definition constantBrowser (v : Z) : Runtime := Browser (fun _ => v).

(** A random source that returns the listed values, slot by slot. *)
Definition scriptedBrowser (values : list nat) : Runtime :=
  Browser (fun i => Z.of_nat (default 0%nat (values !! i))).

(** The decimal numeral of an integer, as a range input reports it. *)
Definition numeral (n : Z) : list N :=
  lit (DecimalString.NilZero.string_of_int (Z.to_int n)).

(** ** Sample inputs *)

(** A browser whose random source overflows 32 bits on every slot. *)
Definition sampleBrowser : Runtime :=
  Browser (fun i => Z.of_nat i * 2654435761 + 4294967296).

(** A server whose [Math.random] cycles through 0, 1/7, ..., 6/7. *)
Definition sampleServer : Runtime :=
  Server (fun i => (Z.of_nat (i mod 7) # 7)%Q).

Definition samplePolicy : PasswordOptions :=
  {| length := 8; includeUppercase := true; includeLowercase := false;
     includeNumbers := true; includeSymbols := false |}.

Definition noClass (len : Z) : PasswordOptions :=
  {| length := len; includeUppercase := false; includeLowercase := false;
     includeNumbers := false; includeSymbols := false |}.

Definition lowercaseOnly (len : Z) : PasswordOptions :=
  {| length := len; includeUppercase := false; includeLowercase := true;
     includeNumbers := false; includeSymbols := false |}.

(** A page showing a password while no class is selected. *)
Definition sampleState : Page.State :=
  {| Page.length := 16; Page.options := noClass 16;
     Page.copied := true; Page.password := lit "kept" |}.


(** A page with lowercase as its only class. *)
Definition sampleLowercaseState : Page.State :=
  {| Page.length := 8; Page.options := lowercaseOnly 8;
     Page.copied := false; Page.password := lit "password" |}.

(** ** Loops and arrays *)

Section ForLoop.
Context {St : Type}.
Variable body : nat -> St -> St.

(** The loop rule: an invariant indexed by the counter, established at
    entry and kept by every iteration, holds at exit. *)
Lemma for_loop_invariant (P : nat -> St -> Prop) :
  forall n i s,
    P i s ->
    (forall j t, (i <= j < i + n)%nat -> P j t -> P (S j) (body j t)) ->
    P (i + n)%nat (for_loop n i body s).
Proof.
  induction n as [|n IH]; intros i s Hentry Hstep; simpl.
  - by rewrite Nat.add_0_r.
  - replace (i + S n)%nat with (S i + n)%nat by lia.
    apply IH.
    + apply Hstep; [lia | done].
    + intros j t Hj. apply Hstep. lia.
Qed.
End ForLoop.

Lemma ToUint32_range z : 0 <= ToUint32 z < 2 ^ 32.
Proof. unfold ToUint32. apply Z.mod_pos_bound. lia. Qed.

Lemma draw_range rt i : 0 <= draw rt i < 2 ^ 32.
Proof. destruct rt; apply ToUint32_range. Qed.

(** Inside the array, an ordinary write is an update in place. *)
Lemma array_set_inside {A} i (v : option A) (a : list (option A)) :
  (i < List.length a)%nat -> array_set i v a = <[i:=v]> a.
Proof. intros Hi. unfold array_set. by rewrite decide_True. Qed.

(** Joining an array whose slots all hold a character gives these
    characters back, one per slot. *)
Lemma join_empty_full (a : list (option N)) :
  (forall k, (k < List.length a)%nat -> exists c, a !! k = Some (Some c)) ->
  a = Some <$> join_empty a.
Proof.
  induction a as [|x a IH]; intros Hfull; [done|].
  destruct (Hfull 0%nat) as [c Hc]; [simpl; lia|].
  simpl in Hc. injection Hc as ->. simpl. f_equal.
  apply IH. intros k Hk. apply (Hfull (S k)). simpl. lia.
Qed.

(** ** The typed array of random values *)

Lemma fillRandomValues_spec rt len :
  List.length (fillRandomValues rt len) = len
  /\ forall k, (k < len)%nat -> fillRandomValues rt len !! k = Some (draw rt k).
Proof.
  destruct rt as [g | r]; simpl.
  - split.
    + by rewrite length_imap, length_replicate.
    + intros k Hk. rewrite list_lookup_imap, lookup_replicate_2 by done.
      done.
  - pose (P := fun (j : nat) (a : list Z) =>
        List.length a = len
        /\ forall k, (k < j)%nat ->
             a !! k = Some (ToUint32 (Math_floor (r k * 4294967295)))).
    assert (P (0 + len)%nat
              (for_loop len 0
                 (fun i a => uint32_set i (Math_floor (r i * 4294967295)) a)
                 (replicate len 0))) as [Hlen Hslots].
    { apply (for_loop_invariant _ P).
      - split; [apply length_replicate | lia].
      - intros j a Hj [Hlen Hslots]. unfold uint32_set. split.
        + by rewrite length_insert.
        + intros k Hk. destruct (decide (k = j)) as [->|Hne].
          * apply list_lookup_insert_eq. lia.
          * rewrite list_lookup_insert_ne by done. apply Hslots. lia. }
    split; [done | exact Hslots].
Qed.

(** ** The character loop *)

Lemma pickCharacters_spec charset randomValues len :
  List.length (pickCharacters charset randomValues len) = len
  /\ forall k, (k < len)%nat ->
       pickCharacters charset randomValues len !! k
       = Some (picked charset randomValues k).
Proof.
  unfold pickCharacters.
  pose (P := fun (j : nat) (a : list (option N)) =>
      List.length a = len
      /\ forall k, (k < j)%nat -> a !! k = Some (picked charset randomValues k)).
  match goal with |- List.length ?l = _ /\ _ => assert (P (0 + len)%nat l) as HP end.
  { apply (for_loop_invariant _ P).
    - split; [apply length_replicate | lia].
    - intros j a Hj [Hlen Hslots].
      rewrite array_set_inside by lia. split.
      + by rewrite length_insert.
      + intros k Hk. destruct (decide (k = j)) as [->|Hne].
        * rewrite list_lookup_insert_eq by lia. unfold picked.
          by destruct (randomValues !! j).
        * rewrite list_lookup_insert_ne by done. apply Hslots. lia. }
  exact HP.
Qed.

(** ** The generator *)

Lemma buildCharset_length o :
  List.length (buildCharset o)
  = ((if includeUppercase o then 26 else 0)
     + (if includeLowercase o then 26 else 0)
     + (if includeNumbers o then 10 else 0)
     + (if includeSymbols o then 26 else 0))%nat.
Proof.
  unfold buildCharset.
  destruct (includeUppercase o), (includeLowercase o), (includeNumbers o),
    (includeSymbols o); reflexivity.
Qed.

Lemma buildCharset_empty o :
  List.length (buildCharset o) = 0%nat <-> anyClass o = false.
Proof.
  rewrite buildCharset_length. unfold anyClass.
  destruct (includeUppercase o), (includeLowercase o), (includeNumbers o),
    (includeSymbols o); simpl; split; (lia || congruence).
Qed.

(** A draw, reduced modulo the length of a non-empty pool, indexes it. *)
Lemma draw_index rt (charset : list N) i :
  (0 < List.length charset)%nat ->
  Z.rem (draw rt i) (Z.of_nat (List.length charset))
  = draw rt i mod Z.of_nat (List.length charset)
  /\ (Z.to_nat (draw rt i mod Z.of_nat (List.length charset))
      < List.length charset)%nat.
Proof.
  intros Hpos. pose proof (draw_range rt i) as Hd. split.
  - apply Z.rem_mod_nonneg; lia.
  - pose proof (Z.mod_pos_bound (draw rt i) (Z.of_nat (List.length charset))).
    lia.
Qed.

(** On a valid policy the generator returns, and what it returns is the
    pool indexed by the draws, one character per draw. *)
Lemma generatePassword_valid rt o :
  validPolicy o ->
  exists s,
    generatePassword rt o = Return s
    /\ List.length s = Z.to_nat (length o)
    /\ drawnFrom rt (buildCharset o) s.
Proof.
  intros [Hlen Hany]. unfold generatePassword.
  assert (0 < List.length (buildCharset o))%nat as Hpos.
  { destruct (decide (List.length (buildCharset o) = 0%nat)) as [H0|]; [|lia].
    apply buildCharset_empty in H0. congruence. }
  rewrite decide_False by lia.
  replace ((length o <? 1) || (length o >? 128)) with false
    by (symmetry; apply orb_false_iff; lia).
  set (len := Z.to_nat (length o)).
  set (cs := buildCharset o) in *.
  destruct (fillRandomValues_spec rt len) as [_ Hrv].
  destruct (pickCharacters_spec cs (fillRandomValues rt len) len)
    as [Hplen Hpick].
  set (a := pickCharacters cs (fillRandomValues rt len) len) in *.
  assert (forall k, (k < len)%nat ->
            exists c, cs !! Z.to_nat (draw rt k mod Z.of_nat (List.length cs))
                      = Some c
                      /\ a !! k = Some (Some c)) as Hslot.
  { intros k Hk. destruct (draw_index rt cs k Hpos) as [Hrem Hidx].
    apply lookup_lt_is_Some in Hidx as [c Hc]. exists c. split; [done|].
    rewrite Hpick by done. unfold picked. rewrite Hrv by done. simpl.
    by rewrite Hrem, Hc. }
  assert (a = Some <$> join_empty a) as Hjoin.
  { apply join_empty_full. intros k Hk. rewrite Hplen in Hk.
    destruct (Hslot k Hk) as (c & _ & Hc). by exists c. }
  assert (List.length (join_empty a) = len) as Hslen.
  { rewrite <- Hplen, Hjoin, length_fmap. by rewrite <- Hjoin. }
  exists (join_empty a). split; [done|]. split; [done|].
  unfold drawnFrom. apply Forall2_same_length_lookup_2.
  - by rewrite length_seq.
  - intros i x c Hx Hc. apply lookup_seq in Hx as [-> Hi]. simpl.
    rewrite Hslen in Hi. destruct (Hslot i Hi) as (c' & Hcs & Ha).
    rewrite Hjoin, list_lookup_fmap, Hc in Ha. simpl in Ha.
    by injection Ha as <-.
Qed.

Lemma buildCharset_In o c : In c (buildCharset o) <-> inEnabledClass o c.
Proof.
  unfold buildCharset, inEnabledClass.
  destruct (includeUppercase o), (includeLowercase o), (includeNumbers o),
    (includeSymbols o);
    rewrite ?in_app_iff; simpl; intuition congruence.
Qed.

Lemma drawnFrom_members rt charset s :
  drawnFrom rt charset s -> Forall (fun c => In c charset) s.
Proof.
  intros Hdrawn. apply Forall_lookup_2. intros i c Hc.
  destruct (Forall2_lookup_r _ _ _ _ _ Hdrawn Hc) as (j & _ & Hj).
  apply list_elem_of_In. by eapply list_elem_of_lookup_2.
Qed.

(** C1. For every valid policy and every runtime (so every sequence of
    random draws), [generatePassword] returns a string; each character of
    it is the pool character at index [draw mod poolLength], and so is in
    the alphabet of a class the policy enables. *)
Theorem generatePassword_characters_enabled rt o :
  validPolicy o ->
  exists s,
    generatePassword rt o = Return s
    /\ drawnFrom rt (buildCharset o) s
    /\ Forall (inEnabledClass o) s.
Proof.
  intros Hvalid.
  destruct (generatePassword_valid rt o Hvalid) as (s & Hret & _ & Hdrawn).
  exists s. split; [done|]. split; [done|].
  eapply Forall_impl; [exact (drawnFrom_members _ _ _ Hdrawn)|].
  intros c Hc. by apply buildCharset_In.
Qed.

(** C2. For every valid policy and every runtime, [generatePassword]
    returns a string of exactly [length] characters. *)
Theorem generatePassword_length rt o :
  validPolicy o ->
  exists s,
    generatePassword rt o = Return s
    /\ Z.of_nat (List.length s) = length o.
Proof.
  intros Hvalid.
  destruct (generatePassword_valid rt o Hvalid) as (s & Hret & Hlen & _).
  exists s. split; [done|]. rewrite Hlen. destruct Hvalid. lia.
Qed.

Lemma generatePassword_thrown rt o :
  thrown (generatePassword rt o) = expectedError o.
Proof.
  unfold expectedError.
  destruct (anyClass o) eqn:Hany; simpl.
  - destruct ((length o <? 1) || (128 <? length o)) eqn:Hlen.
    + unfold generatePassword. rewrite decide_False.
      * rewrite Z.gtb_ltb, Hlen. reflexivity.
      * rewrite buildCharset_empty. congruence.
    + apply orb_false_iff in Hlen as [H1 H2].
      destruct (generatePassword_valid rt o) as (s & -> & _); [|done].
      split; [lia | done].
  - unfold generatePassword. rewrite decide_True; [done|].
    by apply buildCharset_empty.
Qed.

Lemma generatePassword_throws_iff rt o :
  (exists e, generatePassword rt o = Throw e) <-> ~ validPolicy o.
Proof.
  pose proof (generatePassword_thrown rt o) as Hthrown.
  unfold expectedError, validPolicy in *.
  destruct (generatePassword rt o) as [s|e]; simpl in Hthrown.
  - split; [by intros [e He]|]. intros Hinvalid. exfalso. apply Hinvalid.
    destruct (anyClass o); [|discriminate]. simpl in Hthrown.
    destruct ((length o <? 1) || (128 <? length o)) eqn:Hlen; [discriminate|].
    apply orb_false_iff in Hlen. lia.
  - split; [|by exists e]. intros _ [Hlen Hany]. rewrite Hany in Hthrown.
    simpl in Hthrown.
    replace ((length o <? 1) || (128 <? length o)) with false in Hthrown
      by (symmetry; apply orb_false_iff; lia).
    discriminate.
Qed.

(** C3. [generatePassword] throws exactly on the invalid policies: the
    empty-character-class error when no flag is set, whatever the length;
    the length error when a flag is set and the length is below 1 or above
    128; and it returns when a flag is set and the length is 1 or 128. *)
Theorem generatePassword_failure rt o :
  ((exists e, generatePassword rt o = Throw e) <-> ~ validPolicy o)
  /\ (anyClass o = false ->
      generatePassword rt o = Throw EmptyCharacterClassSet)
  /\ (anyClass o = true -> length o < 1 \/ 128 < length o ->
      generatePassword rt o = Throw LengthOutOfRange)
  /\ (anyClass o = true -> length o = 1 \/ length o = 128 ->
      exists s, generatePassword rt o = Return s).
Proof.
  split; [apply generatePassword_throws_iff|].
  pose proof (generatePassword_thrown rt o) as Hthrown.
  unfold expectedError in Hthrown.
  split; [|split].
  - intros Hany. rewrite Hany in Hthrown. simpl in Hthrown.
    destruct (generatePassword rt o); simpl in Hthrown; congruence.
  - intros Hany Hlen. rewrite Hany in Hthrown. simpl in Hthrown.
    replace ((length o <? 1) || (128 <? length o)) with true in Hthrown
      by (symmetry; apply orb_true_iff; lia).
    destruct (generatePassword rt o); simpl in Hthrown; congruence.
  - intros Hany Hlen.
    destruct (generatePassword_valid rt o) as (s & Hs & _);
      [split; [lia | done] | by exists s].
Qed.

(** C8. The pool built by [generatePassword] is the concatenation, in the
    order uppercase, lowercase, digits, symbols, of the alphabets of the
    enabled classes and of nothing else; the alphabets are A-Z, a-z, 0-9
    and the 26 listed symbols; and the pool is not empty as soon as one
    class is enabled. *)
Theorem buildCharset_pool o :
  buildCharset o = poolOfEnabled o
  /\ UPPERCASE = codeRange 65 26
  /\ LOWERCASE = codeRange 97 26
  /\ NUMBERS = codeRange 48 10
  /\ SYMBOLS = lit "!@#$%^&*()_+-=[]{}|;:,.<>?"
  /\ List.length SYMBOLS = 26%nat
  /\ (anyClass o = true -> (0 < List.length (buildCharset o))%nat).
Proof.
  split; [|repeat split].
  - unfold buildCharset, poolOfEnabled.
    destruct (includeUppercase o), (includeLowercase o), (includeNumbers o),
      (includeSymbols o); reflexivity.
  - intros Hany.
    destruct (List.length (buildCharset o)) eqn:Hlen; [|lia].
    apply buildCharset_empty in Hlen. congruence.
Qed.

(** ** The strength score *)

(** C4. The score depends on the password only through its length, and
    on the options only through the four flags: equal lengths and equal
    flags give equal scores, whatever the characters. *)
Theorem calculatePasswordStrength_length_flags p1 p2 o1 o2 :
  List.length p1 = List.length p2 ->
  includeUppercase o1 = includeUppercase o2 ->
  includeLowercase o1 = includeLowercase o2 ->
  includeNumbers o1 = includeNumbers o2 ->
  includeSymbols o1 = includeSymbols o2 ->
  calculatePasswordStrength p1 o1 = calculatePasswordStrength p2 o2.
Proof.
  intros Hlen HU HL HN HS.
  unfold calculatePasswordStrength, strengthSum.
  by rewrite Hlen, HU, HL, HN, HS.
Qed.

(** The score of a password seen through its length only. *)
Ltac score_cases p o :=
  unfold calculatePasswordStrength, strengthSum;
  destruct (Z.of_nat (List.length p) >=? 12),
    (Z.of_nat (List.length p) >=? 8),
    (Z.of_nat (List.length p) >=? 6),
    (includeUppercase o), (includeLowercase o), (includeNumbers o),
    (includeSymbols o).

(** C7. The score is an integer between 0 and 10, for every password
    and every combination of flags. *)
Theorem calculatePasswordStrength_range p o :
  0 <= calculatePasswordStrength p o <= 10.
Proof. score_cases p o; vm_compute; split; discriminate. Qed.

(** C5. The four literal scenarios: length 16 with all four classes sums
    to 10, scores 10 and is Strong; length 6 with lowercase only sums to
    2.5, is rounded up to 3 and is Weak; length 8 with uppercase and
    lowercase sums to 5, scores 5 and is Medium; length 32 with symbols
    only sums to 5.5, is rounded to 6 and is Medium. *)
Theorem strength_scenarios p o :
  (List.length p = 16%nat ->
   includeUppercase o = true -> includeLowercase o = true ->
   includeNumbers o = true -> includeSymbols o = true ->
   (strengthSum p o == 10)%Q
   /\ calculatePasswordStrength p o = 10
   /\ label (getStrengthInfo (calculatePasswordStrength p o)) = "Strong"%string)
  /\ (List.length p = 6%nat ->
      includeUppercase o = false -> includeLowercase o = true ->
      includeNumbers o = false -> includeSymbols o = false ->
      (strengthSum p o == 2.5)%Q
      /\ Math_round (strengthSum p o) = 3
      /\ calculatePasswordStrength p o = 3
      /\ label (getStrengthInfo (calculatePasswordStrength p o))
         = "Weak"%string)
  /\ (List.length p = 8%nat ->
      includeUppercase o = true -> includeLowercase o = true ->
      includeNumbers o = false -> includeSymbols o = false ->
      (strengthSum p o == 5)%Q
      /\ calculatePasswordStrength p o = 5
      /\ label (getStrengthInfo (calculatePasswordStrength p o))
         = "Medium"%string)
  /\ (List.length p = 32%nat ->
      includeUppercase o = false -> includeLowercase o = false ->
      includeNumbers o = false -> includeSymbols o = true ->
      (strengthSum p o == 5.5)%Q
      /\ Math_round (strengthSum p o) = 6
      /\ calculatePasswordStrength p o = 6
      /\ label (getStrengthInfo (calculatePasswordStrength p o))
         = "Medium"%string).
Proof.
  unfold calculatePasswordStrength, strengthSum.
  split; [|split; [|split]];
    intros Hlen -> -> -> ->; rewrite Hlen; repeat split.
Qed.

(** C6. Scores up to 3 are Weak, 4 to 6 Medium, 7 and more Strong; there
    is no other label, and the colour goes with the label. *)
Theorem getStrengthInfo_classes s :
  (s <= 3 ->
   getStrengthInfo s = {| label := "Weak"; color := "bg-red-500" |})
  /\ (4 <= s <= 6 ->
      getStrengthInfo s = {| label := "Medium"; color := "bg-yellow-500" |})
  /\ (7 <= s ->
      getStrengthInfo s = {| label := "Strong"; color := "bg-green-500" |})
  /\ In (label (getStrengthInfo s)) ["Weak"; "Medium"; "Strong"]%string
  /\ (forall s',
        label (getStrengthInfo s) = label (getStrengthInfo s')
        <-> color (getStrengthInfo s) = color (getStrengthInfo s')).
Proof.
  unfold getStrengthInfo.
  repeat split; try intros s'; try intros H;
    repeat match goal with
      | H : context [?a <=? ?b] |- _ => destruct (Z.leb_spec a b)
      | |- context [?a <=? ?b] => destruct (Z.leb_spec a b)
      end;
    simpl in *; try (discriminate || lia || reflexivity); tauto.
Qed.

Lemma Math_round_mono (x y : Q) :
  (x <= y)%Q -> Math_round x <= Math_round y.
Proof.
  intros Hxy. unfold Math_round. apply Qfloor_resp_le.
  apply Qplus_le_compat; [exact Hxy | apply Qle_refl].
Qed.

(** C10. The score never decreases when the password gets longer under
    the same options, nor when one more flag is turned on for the same
    password. *)
Theorem calculatePasswordStrength_monotone p1 p2 o k :
  ((List.length p1 <= List.length p2)%nat ->
   calculatePasswordStrength p1 o <= calculatePasswordStrength p2 o)
  /\ (enabled k o = false ->
      calculatePasswordStrength p1 o
      <= calculatePasswordStrength p1 (enable k o)).
Proof.
  split; intros H; unfold calculatePasswordStrength;
    apply Z.min_le_compat_l, Math_round_mono;
    unfold strengthSum; cbv zeta.
  - apply Qplus_le_compat; [|apply Qle_refl].
    rewrite !Z.geb_leb.
    repeat match goal with
      | |- context [?a <=? ?b] => destruct (Z.leb_spec a b)
      end; try lia; vm_compute; discriminate.
  - apply Qplus_le_compat; [apply Qle_refl|].
    destruct k, (includeUppercase o) eqn:HU, (includeLowercase o) eqn:HL,
      (includeNumbers o) eqn:HN, (includeSymbols o) eqn:HS;
      simpl in *; try discriminate; rewrite ?HU, ?HL, ?HN, ?HS;
      vm_compute; discriminate.
Qed.

(** ** The generate action *)

(** C9. When [generatePassword] throws in the generate action, the error
    is caught and logged and the state, so the displayed password, stays as
    it was; the password is set only when [generatePassword] returns. *)
Theorem generateNewPassword_keeps_state_on_error rt st :
  let policy := spread_length (Page.options st) (Page.length st) in
  (forall e,
     generatePassword rt policy = Throw e ->
     Page.generateNewPassword rt st = (st, [e]))
  /\ (forall s,
        generatePassword rt policy = Return s ->
        Page.generateNewPassword rt st
        = ({| Page.length := Page.length st;
              Page.options := Page.options st;
              Page.copied := false;
              Page.password := s |}, []))
  /\ (fst (Page.generateNewPassword rt st) <> st ->
      exists s, generatePassword rt policy = Return s)
  /\ (~ validPolicy policy -> fst (Page.generateNewPassword rt st) = st).
Proof.
  intros policy. unfold Page.generateNewPassword. fold policy.
  pose proof (generatePassword_throws_iff rt policy) as Hfail.
  destruct (generatePassword rt policy) as [s|e] eqn:Hgen.
  - split; [|split; [|split]].
    + intros e He. discriminate.
    + intros s' Hs'. by injection Hs' as ->.
    + intros _. by exists s.
    + intros Hinvalid. apply Hfail in Hinvalid as [e He]. discriminate.
  - split; [|split; [|split]].
    + intros e' He'. by injection He' as ->.
    + intros s Hs. discriminate.
    + intros Hchanged. by destruct Hchanged.
    + done.
Qed.

(** ** The statements at sample inputs *)

Lemma generatePassword_characters_enabled_sample :
  validPolicy samplePolicy
  /\ exists s,
       generatePassword sampleServer samplePolicy = Return s
       /\ drawnFrom sampleServer (buildCharset samplePolicy) s
       /\ Forall (inEnabledClass samplePolicy) s.
Proof.
  assert (validPolicy samplePolicy) as Hvalid.
  { split; [simpl; lia | reflexivity]. }
  split; [exact Hvalid|].
  exact (generatePassword_characters_enabled sampleServer samplePolicy Hvalid).
Defined.

Lemma generatePassword_length_sample :
  validPolicy samplePolicy
  /\ exists s,
       generatePassword sampleBrowser samplePolicy = Return s
       /\ Z.of_nat (List.length s) = 8.
Proof.
  assert (validPolicy samplePolicy) as Hvalid.
  { split; [simpl; lia | reflexivity]. }
  split; [exact Hvalid|].
  exact (generatePassword_length sampleBrowser samplePolicy Hvalid).
Defined.

Lemma generatePassword_failure_sample :
  generatePassword sampleBrowser (noClass 0) = Throw EmptyCharacterClassSet
  /\ generatePassword sampleBrowser (noClass 200)
     = Throw EmptyCharacterClassSet
  /\ generatePassword sampleBrowser (lowercaseOnly 0) = Throw LengthOutOfRange
  /\ generatePassword sampleServer (lowercaseOnly 129)
     = Throw LengthOutOfRange
  /\ (exists s, generatePassword sampleServer (lowercaseOnly 1) = Return s)
  /\ (exists s, generatePassword sampleBrowser (lowercaseOnly 128) = Return s).
Proof.
  split; [|split; [|split; [|split; [|split]]]].
  - apply (generatePassword_failure sampleBrowser (noClass 0)). reflexivity.
  - apply (generatePassword_failure sampleBrowser (noClass 200)). reflexivity.
  - apply (generatePassword_failure sampleBrowser (lowercaseOnly 0));
      [reflexivity | simpl; lia].
  - apply (generatePassword_failure sampleServer (lowercaseOnly 129));
      [reflexivity | simpl; lia].
  - apply (generatePassword_failure sampleServer (lowercaseOnly 1));
      [reflexivity | simpl; lia].
  - apply (generatePassword_failure sampleBrowser (lowercaseOnly 128));
      [reflexivity | simpl; lia].
Defined.

Lemma buildCharset_pool_sample :
  anyClass samplePolicy = true
  /\ (0 < List.length (buildCharset samplePolicy))%nat.
Proof.
  split; [reflexivity|].
  apply (buildCharset_pool samplePolicy). reflexivity.
Defined.

Lemma calculatePasswordStrength_length_flags_sample :
  calculatePasswordStrength (lit "aaaaaaaa") (lowercaseOnly 8)
  = calculatePasswordStrength (lit "qwertyui") (lowercaseOnly 100).
Proof.
  apply (calculatePasswordStrength_length_flags
           (lit "aaaaaaaa") (lit "qwertyui")
           (lowercaseOnly 8) (lowercaseOnly 100)); reflexivity.
Defined.

Lemma strength_scenarios_sample :
  (strengthSum (lit "abcdef") (lowercaseOnly 6) == 2.5)%Q
  /\ Math_round (strengthSum (lit "abcdef") (lowercaseOnly 6)) = 3
  /\ calculatePasswordStrength (lit "abcdef") (lowercaseOnly 6) = 3
  /\ label (getStrengthInfo
              (calculatePasswordStrength (lit "abcdef") (lowercaseOnly 6)))
     = "Weak"%string.
Proof.
  apply (strength_scenarios (lit "abcdef") (lowercaseOnly 6)); reflexivity.
Defined.

Lemma getStrengthInfo_classes_sample :
  getStrengthInfo 3 = {| label := "Weak"; color := "bg-red-500" |}
  /\ getStrengthInfo 4 = {| label := "Medium"; color := "bg-yellow-500" |}
  /\ getStrengthInfo 6 = {| label := "Medium"; color := "bg-yellow-500" |}
  /\ getStrengthInfo 7 = {| label := "Strong"; color := "bg-green-500" |}.
Proof.
  split; [|split; [|split]].
  - apply (getStrengthInfo_classes 3). lia.
  - apply (getStrengthInfo_classes 4). lia.
  - apply (getStrengthInfo_classes 6). lia.
  - apply (getStrengthInfo_classes 7). lia.
Defined.

Lemma calculatePasswordStrength_monotone_sample :
  calculatePasswordStrength (lit "abc") (lowercaseOnly 3)
  <= calculatePasswordStrength (lit "abcdefgh") (lowercaseOnly 3)
  /\ calculatePasswordStrength (lit "abc") (lowercaseOnly 3)
     <= calculatePasswordStrength (lit "abc") (enable Numbers (lowercaseOnly 3)).
Proof.
  split.
  - apply (calculatePasswordStrength_monotone
             (lit "abc") (lit "abcdefgh") (lowercaseOnly 3) Numbers).
    simpl. lia.
  - apply (calculatePasswordStrength_monotone
             (lit "abc") (lit "abcdefgh") (lowercaseOnly 3) Numbers).
    reflexivity.
Defined.

Lemma generateNewPassword_keeps_state_on_error_sample :
  Page.generateNewPassword sampleBrowser sampleState
  = (sampleState, [EmptyCharacterClassSet]).
Proof.
  apply (generateNewPassword_keeps_state_on_error sampleBrowser sampleState).
  reflexivity.
Defined.

(** ** More on the generator *)

(** Slot by slot, a password drawn from a pool is the pool read at the
    reduced draws. *)
Lemma drawnFrom_lookup rt (charset s : list N) i :
  drawnFrom rt charset s ->
  (i < List.length s)%nat ->
  s !! i
  = charset !! Z.to_nat (draw rt i mod Z.of_nat (List.length charset)).
Proof.
  intros Hdrawn Hi.
  destruct (lookup_lt_is_Some_2 s i Hi) as [c Hc].
  destruct (Forall2_lookup_r _ _ _ _ _ Hdrawn Hc) as (j & Hj & Hpick).
  apply lookup_seq in Hj as [-> _]. simpl in Hpick. congruence.
Qed.

Lemma generatePassword_Return rt o s :
  generatePassword rt o = Return s ->
  validPolicy o
  /\ List.length s = Z.to_nat (length o)
  /\ drawnFrom rt (buildCharset o) s.
Proof.
  intros Hret.
  assert (validPolicy o) as Hvalid.
  { pose proof (generatePassword_thrown rt o) as Hthrown.
    rewrite Hret in Hthrown. simpl in Hthrown.
    unfold expectedError in Hthrown. unfold validPolicy.
    destruct (anyClass o); [|discriminate]. simpl in Hthrown.
    destruct ((length o <? 1) || (128 <? length o)) eqn:Hlen; [discriminate|].
    apply orb_false_iff in Hlen. lia. }
  split; [done|].
  destruct (generatePassword_valid rt o Hvalid) as (s' & Hs' & Hlen & Hdrawn).
  rewrite Hret in Hs'. by injection Hs' as <-.
Qed.

Lemma buildCharset_nonempty o :
  validPolicy o -> (0 < List.length (buildCharset o))%nat.
Proof.
  intros [_ Hany].
  destruct (List.length (buildCharset o)) eqn:Hlen; [|lia].
  apply buildCharset_empty in Hlen. congruence.
Qed.

Lemma buildCharset_size o : (List.length (buildCharset o) <= 88)%nat.
Proof.
  rewrite buildCharset_length.
  destruct (includeUppercase o), (includeLowercase o), (includeNumbers o),
    (includeSymbols o); simpl; lia.
Qed.

(** X1. No character occurs twice in the pool, which has at most 88
    characters: the four alphabets are disjoint, so no character weighs
    double in the draw. *)
Theorem buildCharset_NoDup o :
  NoDup (buildCharset o) /\ (List.length (buildCharset o) <= 88)%nat.
Proof.
  unfold buildCharset.
  destruct (includeUppercase o), (includeLowercase o), (includeNumbers o),
    (includeSymbols o);
    (split; [apply (bool_decide_unpack _); vm_compute; exact I
            | vm_compute; lia]).
Qed.

Lemma buildCharset_printable o c :
  In c (buildCharset o) -> (33 <= c <= 126)%N.
Proof.
  revert c. apply List.Forall_forall. unfold buildCharset.
  destruct (includeUppercase o), (includeLowercase o), (includeNumbers o),
    (includeSymbols o);
    apply (bool_decide_unpack _); vm_compute; exact I.
Qed.

(** X2. A generated password consists of printable ASCII characters other
    than the space: no white space, no control character, nothing outside
    ASCII. *)
Theorem generatePassword_printable rt o :
  validPolicy o ->
  exists s,
    generatePassword rt o = Return s
    /\ Forall (fun c => (33 <= c <= 126)%N) s.
Proof.
  intros Hvalid.
  destruct (generatePassword_valid rt o Hvalid) as (s & Hret & _ & Hdrawn).
  exists s. split; [done|].
  eapply Forall_impl; [exact (drawnFrom_members _ _ _ Hdrawn)|].
  intros c. apply buildCharset_printable.
Qed.


Lemma pool_indices (charset s : list N) :
  Forall (fun c => In c charset) s ->
  exists values : list nat,
    Forall2 (fun j c => charset !! j = Some c) values s.
Proof.
  induction 1 as [|c s Hc _ [values IH]].
  - exists []. constructor.
  - apply list_elem_of_In, list_elem_of_lookup_1 in Hc as [j Hj].
    exists (j :: values). by constructor.
Qed.

(** X4. Every string over the pool, of the requested length, is a possible
    output: some sequence of draws makes the generator return it. *)
Theorem generatePassword_reaches_all o s :
  validPolicy o ->
  List.length s = Z.to_nat (length o) ->
  Forall (fun c => In c (buildCharset o)) s ->
  exists values, generatePassword (scriptedBrowser values) o = Return s.
Proof.
  intros Hvalid Hlen Hpool.
  destruct (pool_indices _ _ Hpool) as [values Hvalues].
  exists values.
  destruct (generatePassword_valid (scriptedBrowser values) o Hvalid)
    as (s' & -> & Hlen' & Hdrawn).
  f_equal. apply list_eq. intros i.
  destruct (decide (i < List.length s)%nat) as [Hi|Hi].
  - rewrite (drawnFrom_lookup _ _ s' i Hdrawn) by lia.
    destruct (lookup_lt_is_Some_2 s i Hi) as [c Hc].
    destruct (Forall2_lookup_r _ _ _ _ _ Hvalues Hc) as (j & Hj & Hpick).
    pose proof (lookup_lt_Some _ _ _ Hpick) as Hjlt.
    pose proof (buildCharset_size o) as Hsize.
    rewrite Hc, <- Hpick. f_equal. simpl. rewrite Hj. simpl.
    unfold ToUint32. rewrite (Z.mod_small (Z.of_nat j) (2 ^ 32)) by lia.
    rewrite Z.mod_small by lia. by rewrite Nat2Z.id.
  - rewrite !lookup_ge_None_2 by lia. done.
Qed.

(** With a random source that returns the same value for every slot, the
    password is one pool character repeated. *)
Lemma generatePassword_constant v o :
  validPolicy o ->
  exists c,
    buildCharset o
      !! Z.to_nat (ToUint32 v mod Z.of_nat (List.length (buildCharset o)))
    = Some c
    /\ generatePassword (constantBrowser v) o
       = Return (replicate (Z.to_nat (length o)) c).
Proof.
  intros Hvalid.
  destruct (draw_index (constantBrowser v) (buildCharset o) 0
              (buildCharset_nonempty o Hvalid)) as [_ Hidx].
  apply lookup_lt_is_Some in Hidx as [c Hc]. simpl in Hc.
  exists c. split; [done|].
  destruct (generatePassword_valid (constantBrowser v) o Hvalid)
    as (s & -> & Hlen & Hdrawn).
  f_equal. symmetry. apply replicate_as_Forall. split; [done|].
  apply Forall_lookup_2. intros i x Hx.
  rewrite (drawnFrom_lookup _ _ s i Hdrawn) in Hx
    by (by eapply lookup_lt_Some).
  simpl in Hx. congruence.
Qed.

(** X5. An enabled class is not guaranteed to appear: as soon as two classes
    are enabled, some sequence of draws gives a password without any
    character of one of the enabled classes. *)
Theorem generatePassword_may_miss_class o k1 k2 :
  validPolicy o ->
  k1 <> k2 ->
  enabled k1 o = true ->
  enabled k2 o = true ->
  exists rt s k,
    generatePassword rt o = Return s
    /\ enabled k o = true
    /\ Forall (fun c => ~ In c (alphabet k)) s.
Proof.
  intros Hvalid Hne H1 H2.
  destruct (generatePassword_constant 0 o Hvalid) as (c & Hc & Hret).
  exists (constantBrowser 0), (replicate (Z.to_nat (length o)) c).
  assert (ToUint32 0 mod Z.of_nat (List.length (buildCharset o)) = 0) as H0
    by (change (ToUint32 0) with 0; apply Z.mod_0_l;
        pose proof (buildCharset_nonempty o Hvalid); lia).
  rewrite H0 in Hc. unfold buildCharset in Hc.
  assert (forall k, enabled k o = true -> ~ In c (alphabet k) ->
            exists k, generatePassword (constantBrowser 0) o
                      = Return (replicate (Z.to_nat (length o)) c)
                      /\ enabled k o = true
                      /\ Forall (fun c => ~ In c (alphabet k))
                           (replicate (Z.to_nat (length o)) c)) as Hpick.
  { intros k Hk Hnot. exists k. split; [done|]. split; [done|].
    by apply Forall_replicate. }
  destruct k1, k2; try congruence; simpl in H1, H2;
    rewrite ?H1, ?H2 in Hc;
    destruct (includeUppercase o) eqn:HU, (includeLowercase o) eqn:HL,
      (includeNumbers o) eqn:HN, (includeSymbols o) eqn:HS;
      try discriminate; simpl in Hc; injection Hc as <-;
      first
        [ apply (Hpick Uppercase); [done|];
          rewrite <- list_elem_of_In;
          apply (bool_decide_unpack _); vm_compute; exact I
        | apply (Hpick Lowercase); [done|];
          rewrite <- list_elem_of_In;
          apply (bool_decide_unpack _); vm_compute; exact I
        | apply (Hpick Numbers); [done|];
          rewrite <- list_elem_of_In;
          apply (bool_decide_unpack _); vm_compute; exact I
        | apply (Hpick Symbols); [done|];
          rewrite <- list_elem_of_In;
          apply (bool_decide_unpack _); vm_compute; exact I ].
Qed.

(** ** More on the strength score *)

(** X6. The clamp [Math.min(10, ...)] never takes effect: the rounded sum is
    at most 10 already. *)
Theorem calculatePasswordStrength_unclamped p o :
  Math_round (strengthSum p o) <= 10
  /\ calculatePasswordStrength p o = Math_round (strengthSum p o).
Proof. score_cases p o; vm_compute; split; (discriminate || reflexivity). Qed.

(** X7. Which passwords get which label, by length and number of enabled
    classes. Strong needs four classes from length 6, three from length 8,
    two from length 12, and is out of reach with one class. Weak is what
    is left below length 6 with at most two classes, below 8 with at most
    one, below 12 with none. Everything else is Medium. *)
Theorem strength_label_table p o :
  (label (getStrengthInfo (calculatePasswordStrength p o)) = "Strong"%string
   <-> (classCount o = 4 /\ 6 <= Z.of_nat (List.length p))
       \/ (3 <= classCount o /\ 8 <= Z.of_nat (List.length p))
       \/ (2 <= classCount o /\ 12 <= Z.of_nat (List.length p)))
  /\ (label (getStrengthInfo (calculatePasswordStrength p o)) = "Weak"%string
      <-> (classCount o <= 2 /\ Z.of_nat (List.length p) < 6)
          \/ (classCount o <= 1 /\ Z.of_nat (List.length p) < 8)
          \/ (classCount o = 0 /\ Z.of_nat (List.length p) < 12)).
Proof.
  unfold calculatePasswordStrength, strengthSum, classCount.
  set (n := Z.of_nat (List.length p)).
  rewrite !Z.geb_leb.
  destruct (Z.leb_spec 12 n), (Z.leb_spec 8 n), (Z.leb_spec 6 n); try lia;
    destruct (includeUppercase o), (includeLowercase o), (includeNumbers o),
      (includeSymbols o);
    repeat match goal with
      | |- context [label ?x] =>
          let y := eval vm_compute in (label x) in
          change (label x) with y
      end;
    simpl Z.b2z;
    (split; split; intros Hside; first [reflexivity | discriminate | lia]).
Qed.

(** X8. The score of a generated password does not depend on the draws: two
    runs on the same policy score the same, under any options used for
    scoring. *)
Theorem generated_strength_fixed rt1 rt2 o s1 s2 o' :
  generatePassword rt1 o = Return s1 ->
  generatePassword rt2 o = Return s2 ->
  calculatePasswordStrength s1 o' = calculatePasswordStrength s2 o'.
Proof.
  intros H1 H2.
  apply generatePassword_Return in H1 as (_ & Hlen1 & _).
  apply generatePassword_Return in H2 as (_ & Hlen2 & _).
  unfold calculatePasswordStrength, strengthSum.
  by rewrite Hlen1, Hlen2.
Qed.

Lemma score_enable_le p o k :
  calculatePasswordStrength p o <= calculatePasswordStrength p (enable k o).
Proof.
  unfold calculatePasswordStrength.
  apply Z.min_le_compat_l, Math_round_mono.
  unfold strengthSum; cbv zeta.
  apply Qplus_le_compat; [apply Qle_refl|].
  destruct k, (includeUppercase o) eqn:HU, (includeLowercase o) eqn:HL,
    (includeNumbers o) eqn:HN, (includeSymbols o) eqn:HS;
    simpl; rewrite ?HU, ?HL, ?HN, ?HS; vm_compute; discriminate.
Qed.

(** ** The option checkboxes *)

Ltac flag_cases st k :=
  destruct st as [len [olen u l n s] cp pw], k;
  destruct u, l, n, s.

(** X9. After [handleOptionChange], whatever the key and the state before, at
    least one class is enabled. *)
Theorem handleOptionChange_keeps_class k st :
  anyClass (Page.options (handleOptionChange k st)) = true.
Proof. flag_cases st k; reflexivity. Qed.

(** X10. Clicking the same checkbox twice gives the state back, provided a
    class was enabled to begin with. *)
Theorem handleOptionChange_twice k st :
  anyClass (Page.options st) = true ->
  handleOptionChange k (handleOptionChange k st) = st.
Proof. flag_cases st k; simpl; (discriminate || reflexivity). Qed.

(** X11. [handleOptionChange] refuses to clear the last enabled class and
    leaves the state as it is; otherwise it flips the flag of its key. In
    both cases the other flags, the lengths, the password and the copied
    mark stay. *)
Theorem handleOptionChange_effect k st :
  (enabled k (Page.options st) = true /\ classCount (Page.options st) = 1 ->
   handleOptionChange k st = st)
  /\ (~ (enabled k (Page.options st) = true
         /\ classCount (Page.options st) = 1) ->
      enabled k (Page.options (handleOptionChange k st))
      = negb (enabled k (Page.options st)))
  /\ (forall k', k' <> k ->
        enabled k' (Page.options (handleOptionChange k st))
        = enabled k' (Page.options st))
  /\ length (Page.options (handleOptionChange k st))
     = length (Page.options st)
  /\ Page.length (handleOptionChange k st) = Page.length st
  /\ Page.password (handleOptionChange k st) = Page.password st
  /\ Page.copied (handleOptionChange k st) = Page.copied st.
Proof.
  flag_cases st k;
    (split; [|split; [|split; [|repeat split]]]);
    try (intros [? Hcount]; vm_compute in Hcount; discriminate || reflexivity);
    try (intros Hnot; first [reflexivity | exfalso; apply Hnot; by split]);
    intros k' Hk'; destruct k'; (reflexivity || congruence).
Qed.

(** ** The length slider *)

(** X12. [handleLengthChange] either leaves the state as it is, or has read an
    integer between 6 and 32 and sets both the length and the length of the
    options to it; it never touches the flags, the password or the copied
    mark. *)
Theorem handleLengthChange_effect value st :
  handleLengthChange value st = st
  \/ exists n,
       parseInt value = Some n
       /\ 6 <= n <= 32
       /\ handleLengthChange value st
          = {| Page.length := n;
               Page.options := spread_length (Page.options st) n;
               Page.copied := Page.copied st;
               Page.password := Page.password st |}.
Proof.
  unfold handleLengthChange.
  destruct (parseInt value) as [n|]; [|by left].
  destruct ((n >=? 6) && (n <=? 32)) eqn:Hrange; [|by left].
  right. exists n. apply andb_true_iff in Hrange as [H6 H32].
  split; [done|]. split; [lia|]. reflexivity.
Qed.

(** X13. Every position of the slider, reported as a decimal numeral, is
    accepted: the length and the length of the options become that
    number. *)
Theorem handleLengthChange_numeral n st :
  6 <= n <= 32 ->
  Page.length (handleLengthChange (numeral n) st) = n
  /\ length (Page.options (handleLengthChange (numeral n) st)) = n.
Proof.
  intros Hn.
  destruct n as [|p|p]; try lia.
  repeat (destruct p as [p|p|]; try lia); split; reflexivity.
Qed.

(** ** The page as a whole *)

Lemma validPolicy_in_page st :
  wellFormed st ->
  validPolicy (spread_length (Page.options st) (Page.length st)).
Proof. intros (Hlen & _ & Hany & _). split; [simpl; lia | exact Hany]. Qed.

(** In a well-formed state the generate action gets a password. *)
Lemma generateNewPassword_wellFormed rt st :
  wellFormed st ->
  exists s,
    Page.generateNewPassword rt st
    = ({| Page.length := Page.length st;
          Page.options := Page.options st;
          Page.copied := false;
          Page.password := s |}, [])
    /\ Z.of_nat (List.length s) = Page.length st
    /\ Forall (inEnabledClass (Page.options st)) s.
Proof.
  intros Hwf. pose proof (validPolicy_in_page st Hwf) as Hvalid.
  destruct Hwf as (Hlen & _).
  destruct (generatePassword_valid rt _ Hvalid) as (s & Hret & Hslen & Hdrawn).
  exists s. unfold Page.generateNewPassword. rewrite Hret.
  split; [done|]. split; [simpl in Hslen; lia|].
  eapply Forall_impl; [exact (drawnFrom_members _ _ _ Hdrawn)|].
  intros c Hc. by apply buildCharset_In in Hc.
Qed.

Lemma initialState_wellFormed rt : wellFormed (initialState rt).
Proof.
  assert (validPolicy (spread_length initialOptions 16)) as Hvalid
    by (split; [simpl; lia | reflexivity]).
  destruct (generatePassword_valid rt _ Hvalid) as (s & Hret & Hlen & _).
  unfold wellFormed, initialState. rewrite Hret. simpl in *.
  repeat split; lia.
Qed.

Lemma handle_wellFormed st ev : wellFormed st -> wellFormed (handle st ev).
Proof.
  intros Hwf. destruct ev as [rt | value | key | b]; simpl.
  - destruct (generateNewPassword_wellFormed rt st Hwf) as (s & -> & Hs & _).
    destruct Hwf as (Hlen & Hsync & Hany & _).
    repeat split; simpl; try done; lia.
  - unfold handleLengthChange.
    destruct (parseInt value) as [n|]; [|done].
    destruct ((n >=? 6) && (n <=? 32)) eqn:Hrange; [|done].
    apply andb_true_iff in Hrange as [H6 H32].
    destruct Hwf as (_ & _ & Hany & Hpw).
    repeat split; simpl; try done; lia.
  - destruct Hwf as (Hlen & Hsync & Hany & Hpw).
    flag_cases st key; simpl in *;
      (split; [|split; [|split]]); simpl; (done || lia).
  - exact Hwf.
Qed.

Lemma fold_handle_wellFormed events :
  forall st, wellFormed st -> wellFormed (fold_left handle events st).
Proof.
  induction events as [|ev events IH]; intros st Hwf; simpl; [done|].
  by apply IH, handle_wellFormed.
Qed.

Lemma strength_wellFormed st : wellFormed st -> 3 <= strength st <= 10.
Proof.
  intros (_ & _ & Hany & Hpw). unfold strength.
  destruct (Page.password st) as [|c pw] eqn:Hpassword; [simpl in Hpw; lia|].
  rewrite <- Hpassword in *. clear Hpassword.
  unfold calculatePasswordStrength, strengthSum.
  unfold anyClass in Hany. rewrite !Z.geb_leb.
  set (n := Z.of_nat (List.length (Page.password st))).
  assert (6 <= n) as Hn by (unfold n; lia).
  destruct (Z.leb_spec 12 n), (Z.leb_spec 8 n), (Z.leb_spec 6 n); try lia;
    destruct (includeUppercase (Page.options st)),
      (includeLowercase (Page.options st)),
      (includeNumbers (Page.options st)),
      (includeSymbols (Page.options st));
    try discriminate; vm_compute; split; discriminate.
Qed.

(** X14. At mount, whatever the random source, the page shows a password: 16
    characters from the four alphabets, rated 10, Strong. *)
Theorem initialState_password rt :
  List.length (Page.password (initialState rt)) = 16%nat
  /\ Forall (inEnabledClass initialOptions) (Page.password (initialState rt))
  /\ strength (initialState rt) = 10
  /\ label (getStrengthInfo (strength (initialState rt))) = "Strong"%string.
Proof.
  assert (validPolicy (spread_length initialOptions 16)) as Hvalid
    by (split; [simpl; lia | reflexivity]).
  destruct (generatePassword_valid rt _ Hvalid) as (s & Hret & Hlen & Hdrawn).
  assert (strength (initialState rt) = 10) as Hstrength.
  { unfold strength, initialState. cbn [Page.password Page.options].
    rewrite Hret.
    destruct s as [|c s]; [discriminate|].
    unfold calculatePasswordStrength, strengthSum. rewrite Hlen.
    reflexivity. }
  rewrite Hstrength. unfold initialState. cbn [Page.password].
  rewrite Hret.
  split; [exact Hlen|]. split; [|done].
  eapply Forall_impl; [exact (drawnFrom_members _ _ _ Hdrawn)|].
  intros c Hc. by apply buildCharset_In in Hc.
Qed.

(** X15. Through any session (generate clicks with any random source, slider
    values of any text, checkbox clicks, copy marks) the page keeps: a
    length between 6 and 32, the same length in the options, at least one
    class enabled, and a displayed password of 6 to 32 characters. *)
Theorem session_wellFormed rt events : wellFormed (session rt events).
Proof. apply fold_handle_wellFormed, initialState_wellFormed. Qed.

(** X16. In a session the generate action never reaches its catch branch:
    nothing is logged, and the new password has the selected length and
    only characters of the enabled classes. *)
Theorem generateNewPassword_in_session rt events rt' :
  exists s,
    Page.generateNewPassword rt' (session rt events)
    = ({| Page.length := Page.length (session rt events);
          Page.options := Page.options (session rt events);
          Page.copied := false;
          Page.password := s |}, [])
    /\ Z.of_nat (List.length s) = Page.length (session rt events)
    /\ Forall (inEnabledClass (Page.options (session rt events))) s.
Proof.
  apply generateNewPassword_wellFormed, fold_handle_wellFormed,
    initialState_wellFormed.
Qed.

(** X17. In a session the strength meter is never empty: the displayed
    strength is between 3 and 10. *)
Theorem session_strength rt events :
  3 <= strength (session rt events) <= 10.
Proof.
  apply strength_wellFormed, fold_handle_wellFormed, initialState_wellFormed.
Qed.

(** X18. Ticking a class that was off leaves the displayed password as it is
    and does not lower its displayed strength: the strength follows the
    checkboxes, not the characters shown. *)
Theorem handleOptionChange_strength k st :
  enabled k (Page.options st) = false ->
  Page.password (handleOptionChange k st) = Page.password st
  /\ Page.options (handleOptionChange k st) = enable k (Page.options st)
  /\ strength st <= strength (handleOptionChange k st).
Proof.
  intros Hoff.
  assert (Page.options (handleOptionChange k st) = enable k (Page.options st))
    as Hopts by (flag_cases st k; simpl in *; (discriminate || reflexivity)).
  split; [done|]. split; [done|].
  unfold strength. rewrite Hopts.
  change (Page.password (handleOptionChange k st)) with (Page.password st).
  destruct (Page.password st); [done | apply score_enable_le].
Qed.

(** X19. The colour of the label's text and the colour of the bar are of the
    same tier for every strength. *)
Theorem strengthTextClass_agrees s :
  (strengthTextClass s = "text-red-400"%string
   <-> color (getStrengthInfo s) = "bg-red-500"%string)
  /\ (strengthTextClass s = "text-yellow-400"%string
      <-> color (getStrengthInfo s) = "bg-yellow-500"%string)
  /\ (strengthTextClass s = "text-green-400"%string
      <-> color (getStrengthInfo s) = "bg-green-500"%string).
Proof.
  unfold strengthTextClass, getStrengthInfo.
  destruct (s <=? 3); [|destruct (s <=? 6)]; simpl;
    (split; [|split]); split; intros H; (reflexivity || discriminate).
Qed.

(** ** Further statements at sample inputs *)

Lemma samplePolicy_valid : validPolicy samplePolicy.
Proof. split; [simpl; lia | reflexivity]. Defined.

Lemma generatePassword_printable_sample :
  exists s,
    generatePassword sampleServer samplePolicy = Return s
    /\ Forall (fun c => (33 <= c <= 126)%N) s.
Proof.
  exact (generatePassword_printable sampleServer samplePolicy
           samplePolicy_valid).
Defined.


Lemma generatePassword_reaches_all_sample :
  exists values,
    generatePassword (scriptedBrowser values) samplePolicy
    = Return (lit "A1B2C3D4").
Proof.
  apply (generatePassword_reaches_all samplePolicy (lit "A1B2C3D4")
           samplePolicy_valid); [reflexivity|].
  repeat (constructor;
          [apply list_elem_of_In, (bool_decide_unpack _);
           vm_compute; exact I|]).
  constructor.
Defined.

Lemma generatePassword_may_miss_class_sample :
  exists rt s k,
    generatePassword rt samplePolicy = Return s
    /\ enabled k samplePolicy = true
    /\ Forall (fun c => ~ In c (alphabet k)) s.
Proof.
  apply (generatePassword_may_miss_class samplePolicy Uppercase Numbers
           samplePolicy_valid); [discriminate | reflexivity | reflexivity].
Defined.

Lemma generated_strength_fixed_sample :
  calculatePasswordStrength (lit "AZK9UF4P") initialOptions
  = calculatePasswordStrength (lit "AAABBCCA") initialOptions.
Proof.
  apply (generated_strength_fixed sampleBrowser sampleServer samplePolicy
           (lit "AZK9UF4P") (lit "AAABBCCA") initialOptions);
    vm_compute; reflexivity.
Defined.

Lemma handleOptionChange_twice_sample :
  handleOptionChange Symbols
    (handleOptionChange Symbols sampleLowercaseState)
  = sampleLowercaseState.
Proof.
  apply (handleOptionChange_twice Symbols sampleLowercaseState). reflexivity.
Defined.

Lemma handleOptionChange_effect_sample :
  handleOptionChange Lowercase sampleLowercaseState = sampleLowercaseState
  /\ enabled Numbers
       (Page.options (handleOptionChange Numbers sampleLowercaseState))
     = true.
Proof.
  split.
  - apply (handleOptionChange_effect Lowercase sampleLowercaseState).
    split; reflexivity.
  - apply (handleOptionChange_effect Numbers sampleLowercaseState).
    intros [Hon _]. discriminate Hon.
Defined.

Lemma handleLengthChange_numeral_sample :
  Page.length (handleLengthChange (numeral 20) sampleLowercaseState) = 20
  /\ length (Page.options
               (handleLengthChange (numeral 20) sampleLowercaseState)) = 20.
Proof.
  apply (handleLengthChange_numeral 20 sampleLowercaseState). lia.
Defined.

Lemma handleOptionChange_strength_sample :
  Page.password (handleOptionChange Numbers sampleLowercaseState)
  = lit "password"
  /\ Page.options (handleOptionChange Numbers sampleLowercaseState)
     = enable Numbers (lowercaseOnly 8)
  /\ strength sampleLowercaseState
     <= strength (handleOptionChange Numbers sampleLowercaseState).
Proof.
  apply (handleOptionChange_strength Numbers sampleLowercaseState).
  reflexivity.
Defined.
